(** * Verification of [extract_doc_numbers.py]

    A shallow embedding of the document-number extractor and the proofs of
    its specification.  The development follows the layout of the Python
    module:

    - [PyStr]: the [str] methods the module calls ([strip], [lower],
      [startswith]);
    - [ET]: the part of [xml.etree.ElementTree] the module uses (elements,
      [get], [find], [iter] and the [.//tag] form of [findall]);
    - the exception classes, [_get_priority] and [extract_doc_numbers];
    - the theorems.

    Modelling conventions.

    - A Python [str] is a [string]; each [ascii] stands for the code point
      with the same number, so the model covers the texts whose code points
      lie below 256.  On that range [isspace] and [lower] are CPython's.
      (Above it, no character lower-cases to a letter of [epo] or
      [patent-office] alone, so the two comparisons see nothing new.)
    - [Path.exists] and [Path.read_text] read the file system, which is an
      explicit argument of [extract_doc_numbers]; either of them can
      raise.
    - [ET.fromstring] is the standard library's parser.  It is a parameter
      of the development: a function from the text to either the root
      element or the text of the [ParseError].
    - [logger.info] does not contribute to the result and is left out. *)

From Stdlib Require Import Ascii List Sorted Permutation Arith Lia.
From stdpp Require Import base option list gmap strings pretty.

Set Warnings "-register-all".

(** ** Python strings *)

Module PyStr.

(** [str.isspace] on one character: TAB..CR, FS..US, space, NEL, NBSP. *)
Definition isspace (c : ascii) : bool :=
  let n := nat_of_ascii c in
  (((9 <=? n) && (n <=? 13)) || ((28 <=? n) && (n <=? 32))
   || (n =? 133) || (n =? 160)).

(** Characters with a lower-case mapping: A..Z and the Latin-1 capitals
    (U+00C0..U+00DE without the multiplication sign U+00D7). *)
Definition isupper (c : ascii) : bool :=
  let n := nat_of_ascii c in
  (((65 <=? n) && (n <=? 90))
   || ((192 <=? n) && (n <=? 222) && negb (n =? 215))).

Definition lower_char (c : ascii) : ascii :=
  if isupper c then ascii_of_nat (nat_of_ascii c + 32) else c.

(** [s.lower()] *)
Fixpoint lower (s : string) : string :=
  match s with
  | EmptyString => EmptyString
  | String c r => String (lower_char c) (lower r)
  end.

(** [s.lstrip()] *)
Fixpoint lstrip (s : string) : string :=
  match s with
  | EmptyString => EmptyString
  | String c r => if isspace c then lstrip r else s
  end.

(** [s.rstrip()] *)
Fixpoint rstrip (s : string) : string :=
  match s with
  | EmptyString => EmptyString
  | String c r =>
      match rstrip r with
      | EmptyString => if isspace c then EmptyString else String c EmptyString
      | r' => String c r'
      end
  end.

(** [s.strip()]: the index from the left first, then from the right. *)
Definition strip (s : string) : string := rstrip (lstrip s).

(** [s.startswith(p)] *)
Definition startswith (s p : string) : bool := String.prefix p s.

(** Truth value of a string: [not s] holds of the empty string only. *)
Definition truthy (s : string) : bool :=
  match s with EmptyString => false | String _ _ => true end.

(** A text made of white space only (the empty text included). *)
Fixpoint all_space (s : string) : bool :=
  match s with
  | EmptyString => true
  | String c r => isspace c && all_space r
  end.

(** First and last character, when there is one. *)
Definition first_char (s : string) : option ascii :=
  match s with EmptyString => None | String c _ => Some c end.

Fixpoint last_char (s : string) : option ascii :=
  match s with
  | EmptyString => None
  | String c EmptyString => Some c
  | String _ r => last_char r
  end.

(** Equality of two characters up to case, stated without [lower]. *)
Definition same_letter (a b : ascii) : bool :=
  Ascii.eqb a b
  || (isupper a && (nat_of_ascii a + 32 =? nat_of_ascii b))
  || (isupper b && (nat_of_ascii b + 32 =? nat_of_ascii a)).

(** Equality of two texts up to case. *)
Fixpoint equal_nocase (s t : string) : bool :=
  match s, t with
  | EmptyString, EmptyString => true
  | String a s', String b t' => same_letter a b && equal_nocase s' t'
  | _, _ => false
  end.

End PyStr.

(** ** The element tree *)

Module ET.

(** An [Element]: its tag, its attribute dictionary, the text before its
    first child and its children in source order.  ([tail] is not read by
    the module and is not part of the model.) *)
Inductive Element : Type :=
  mkElement {
    tag : string;
    attrib : gmap string string;
    text : option string;
    children : list Element
  }.

(** Result of [fromstring]: the root, or the text of the [ParseError]. *)
Inductive ParseResult : Type :=
| Parsed (root : Element)
| ParseError (diagnostic : string).

(** [elem.get(key, default)] *)
Definition get (elem : Element) (key dflt : string) : string :=
  default dflt (attrib elem !! key).

(** [elem.find(tg)] for a plain tag: the first direct child so named. *)
Definition find (tg : string) (elem : Element) : option Element :=
  List.find (fun e => String.eqb (tag e) tg) (children elem).

(** [elem.iter(tg)]: the element itself when its tag matches, then the
    matches below each child, in document order. *)
Fixpoint iter (tg : string) (elem : Element) : list Element :=
  match elem with
  | mkElement t _ _ cs =>
      (if String.eqb t tg then [elem] else []) ++ flat_map (iter tg) cs
  end.

(** [elem.findall('.//' + tg)]: [iter] without the element it starts
    from ([for e in elem.iter(tag): if e is not elem: yield e]). *)
Definition findall_descendants (tg : string) (elem : Element)
  : list Element :=
  flat_map (iter tg) (children elem).

(** Every element of the tree in document order: a node, then the
    subtrees of its children from left to right. *)
Fixpoint preorder (elem : Element) : list Element :=
  match elem with
  | mkElement _ _ _ cs => elem :: flat_map preorder cs
  end.

(** The elements strictly below [elem], in document order. *)
Definition descendants (elem : Element) : list Element :=
  flat_map preorder (children elem).

End ET.

(** ** Exceptions and results *)

Inductive Exception : Type :=
| XMLParsingError (msg : string)
| FileReadError (msg : string)
| FileNotFound (msg : string)
| ValueError (msg : string)
| OSError (msg : string).

Inductive Result (A : Type) : Type :=
| Ok (value : A)
| Raise (exn : Exception).

Arguments Ok {A} value.
Arguments Raise {A} exn.

Definition bind {A B : Type} (r : Result A) (k : A -> Result B) : Result B :=
  match r with
  | Ok a => k a
  | Raise e => Raise e
  end.

Notation "x <- r ;; k" := (bind r (fun x => k))
  (at level 100, r at next level, right associativity).

(** ** The file system *)

(** What [Path(p).exists()] and [Path(p).read_text(encoding='utf-8')] see
    at a path. *)
Inductive PathState : Type :=
| Absent                       (* [exists()] is [False] *)
| Readable (content : string)  (* [read_text] returns [content] *)
| Unreadable (reason : string)
  (* the path exists and [read_text] raises [e] with [str(e) = reason]:
     a directory, a permission error, bytes that are not UTF-8 *)
| Inaccessible (reason : string).
  (* [exists()] itself raises [OSError] with [str(e) = reason]: the name
     is too long, a directory on the way may not be searched *)

Definition FileSystem : Type := string -> PathState.

(** [Path(path).exists()]: [True], [False], or the [OSError] of the
    [stat] call when it is none of the errors [exists] takes for an
    absent path (in the pathlib of Python 3.11, [ENOENT], [ENOTDIR],
    [EBADF] and [ELOOP] give [False] and any other [OSError] is raised
    again). *)
Definition exists_ (fs : FileSystem) (path : string) : Result bool :=
  match fs path with
  | Absent => Ok false
  | Readable _ | Unreadable _ => Ok true
  | Inaccessible reason => Raise (OSError reason)
  end.

(** [Path(path).read_text(encoding='utf-8')]: the content, or the text of
    the exception raised. *)
Definition read_text (fs : FileSystem) (path : string) : string + string :=
  match fs path with
  | Readable content => inl content
  | Unreadable reason | Inaccessible reason => inr reason
  | Absent => inr ("[Errno 2] No such file or directory: '" +:+ path +:+ "'")
  end.

(** ** [extract_doc_numbers.py] *)

(** An entry of the list [entries]: [(priority, doc_number)]. *)
Definition entry : Type := nat * string.

Definition _get_priority (format_attr load_source_attr : string) : nat :=
  let has_epo := String.eqb format_attr "epo" in
  let has_patent_office := String.eqb load_source_attr "patent-office" in
  if has_epo && has_patent_office then 1
  else if has_epo then 2
  else if has_patent_office then 3
  else 4.

(** [list.sort(key=lambda x: x[0])] is a stable sort on the first
    component.  It is modelled by insertion from the right: an entry goes
    in front of the first sorted entry whose key is not smaller, hence in
    front of every later entry with its own key. *)
Fixpoint insert_by_key (x : entry) (l : list entry) : list entry :=
  match l with
  | [] => [x]
  | y :: l' => if (fst y <? fst x) then y :: insert_by_key x l' else x :: l
  end.

Fixpoint sort_by_key (l : list entry) : list entry :=
  match l with
  | [] => []
  | x :: l' => insert_by_key x (sort_by_key l')
  end.

Section Extract.

(** [ET.fromstring] *)
Variable fromstring : string -> ET.ParseResult.

(** Lines 83-95: the XML text of the source.  The test of line 88 is
    outside the [try]: an exception of [path.exists()] leaves the call. *)
Definition read_xml_content (fs : FileSystem) (source_str : string)
  : Result string :=
  if PyStr.startswith (PyStr.strip source_str) "<" then
    Ok source_str
  else
    path_exists <- exists_ fs source_str ;;
    if path_exists : bool then
      match read_text fs source_str with
      | inl xml_content => Ok xml_content
      | inr e =>
          Raise (FileReadError
                   ("Failed to read " +:+ source_str +:+ ": " +:+ e))
      end
    else
      Raise (ValueError
               "Input must be either the path to an existing file or an XML string starting with '<'.").

(** Lines 98-101: the parse, a [ParseError] becoming [XMLParsingError]. *)
Definition parse_xml (xml_content : string) : Result ET.Element :=
  match fromstring xml_content with
  | ET.Parsed root => Ok root
  | ET.ParseError e => Raise (XMLParsingError ("Invalid XML: " +:+ e))
  end.

(** Lines 107-119: the body of the loop, from the entries so far to the
    entries after [doc_id]. *)
Definition loop_body (entries : list entry) (doc_id : ET.Element)
  : list entry :=
  let format_attr := PyStr.lower (ET.get doc_id "format" "") in
  let load_source_attr := PyStr.lower (ET.get doc_id "load-source" "") in
  match ET.find "doc-number" doc_id with
  | None => entries
  | Some doc_num_elem =>
      match ET.text doc_num_elem with
      | None => entries
      | Some txt =>
          if negb (PyStr.truthy txt) then entries
          else
            let doc_number := PyStr.strip txt in
            if negb (PyStr.truthy doc_number) then entries
            else
              let priority := _get_priority format_attr load_source_attr in
              entries ++ [(priority, doc_number)]
      end
  end.

(** Lines 104-119: the loop over [root.findall('.//document-id')]. *)
Definition collect_entries (root : ET.Element) : list entry :=
  fold_left loop_body (ET.findall_descendants "document-id" root) [].

(** Lines 104-123: from the parsed root to the returned list. *)
Definition doc_numbers_of_root (root : ET.Element) : list string :=
  map snd (sort_by_key (collect_entries root)).

Definition extract_doc_numbers (fs : FileSystem) (source : string)
  : Result (list string) :=
  xml_content <- read_xml_content fs source ;;
  root <- parse_xml xml_content ;;
  Ok (doc_numbers_of_root root).

End Extract.

(** ** The command line *)

(** [s * n] on a string. *)
Fixpoint str_mul (s : string) (n : nat) : string :=
  match n with
  | 0 => ""
  | S n' => s +:+ str_mul s n'
  end.

(** [enumerate(l, start)] *)
Fixpoint enumerate {A : Type} (l : list A) (start : nat) : list (nat * A) :=
  match l with
  | [] => []
  | x :: l' => (start, x) :: enumerate l' (S start)
  end.

(** What a run writes: the argument of each [print] on the two streams, in
    order.  The records of [logger] go to [stderr], through the handler
    line 28 installs, as [levelname: message]. *)
Record Streams : Type := mkStreams {
  stdout : list string;
  stderr : list string
}.

(** How [main] ends: it returns, it raises [SystemExit] through
    [sys.exit], or an exception it does not catch leaves it. *)
Inductive Ending : Type :=
| Returned
| SystemExit (status : nat)
| Propagated (exn : Exception).

(** Line 91: the record logged by [extract_doc_numbers], after the file
    has been read. *)
Definition read_log (fs : FileSystem) (source_str : string) : list string :=
  if PyStr.startswith (PyStr.strip source_str) "<" then []
  else
    match exists_ fs source_str with
    | Ok true =>
        match read_text fs source_str with
        | inl _ => ["INFO: Read file: " +:+ source_str]
        | inr _ => []
        end
    | Ok false | Raise _ => []
    end.

Definition usage_line : string :=
  "Usage: python extract_doc_numbers.py <xml_file>".

(** The f-string of line 136; it starts with a line feed. *)
Definition header_line (doc_numbers : list string) : string :=
  String "010" ("Extracted " +:+ pretty (length doc_numbers)
                +:+ " doc-number(s):").

(** The f-string of line 139. *)
Definition numbered_line (item : nat * string) : string :=
  pretty (fst item) +:+ ". " +:+ snd item.

(** Lines 126-142, [sys.argv] being [argv]. *)
Definition main (fromstring : string -> ET.ParseResult) (fs : FileSystem)
  (argv : list string) : Streams * Ending :=
  if length argv <? 2 then
    (mkStreams [usage_line] [], SystemExit 1)
  else
    let source := default "" (argv !! 1) in
    let logged := read_log fs source in
    match extract_doc_numbers fromstring fs source with
    | Ok doc_numbers =>
        (mkStreams
           ([header_line doc_numbers; str_mul "-" 40]
            ++ map numbered_line (enumerate doc_numbers 1))
           logged,
         Returned)
    | Raise (FileReadError e) | Raise (XMLParsingError e) =>
        (mkStreams [] (logged ++ ["Error: " +:+ e]), SystemExit 1)
    | Raise exn => (mkStreams [] logged, Propagated exn)
    end.

(** ** The specification's vocabulary *)

(** The tier table of the data model: the tier as a function of the two
    predicates [format == "epo"] and [load-source == "patent-office"]. *)
Definition tier_table (format_is_epo load_source_is_patent_office : bool)
  : nat :=
  match format_is_epo, load_source_is_patent_office with
  | true, true => 1
  | true, false => 2
  | false, true => 3
  | false, false => 4
  end.

(** An attribute compared with a constant without regard to case; an
    attribute that is absent does not match. *)
Definition attribute_matches (elem : ET.Element) (key expected : string)
  : bool :=
  match ET.attrib elem !! key with
  | Some v => PyStr.equal_nocase v expected
  | None => false
  end.

Definition format_is_epo (elem : ET.Element) : bool :=
  attribute_matches elem "format" "epo".

Definition load_source_is_patent_office (elem : ET.Element) : bool :=
  attribute_matches elem "load-source" "patent-office".

Definition tier_of (elem : ET.Element) : nat :=
  tier_table (format_is_epo elem) (load_source_is_patent_office elem).

(** The priority lines 107, 108 and 118 compute for [doc_id]. *)
Definition assigned_priority (doc_id : ET.Element) : nat :=
  _get_priority (PyStr.lower (ET.get doc_id "format" ""))
                (PyStr.lower (ET.get doc_id "load-source" "")).

(** [v] is [t] without its leading and trailing white space. *)
Definition trimmed_of (v t : string) : Prop :=
  (exists l r, PyStr.all_space l = true /\ PyStr.all_space r = true
               /\ t = l +:+ v +:+ r)
  /\ (forall c, PyStr.first_char v = Some c -> PyStr.isspace c = false)
  /\ (forall c, PyStr.last_char v = Some c -> PyStr.isspace c = false).

(** The text of the first [doc-number] child, when it has one that is not
    white space only. *)
Definition doc_number_text (doc_id : ET.Element) : option string :=
  match ET.find "doc-number" doc_id with
  | Some child =>
      match ET.text child with
      | Some t => if PyStr.all_space t then None else Some t
      | None => None
      end
  | None => None
  end.

Definition has_doc_number (doc_id : ET.Element) : bool :=
  match doc_number_text doc_id with Some _ => true | None => false end.

(** The identifier record of a [document-id] element, if it has one. *)
Definition record_of (doc_id : ET.Element) : option entry :=
  match doc_number_text doc_id with
  | Some t => Some (tier_of doc_id, PyStr.strip t)
  | None => None
  end.

Definition is_document_id (elem : ET.Element) : bool :=
  String.eqb (ET.tag elem) "document-id".

(** The [document-id] elements of a list of elements, in its order. *)
Definition document_ids (elems : list ET.Element) : list ET.Element :=
  List.filter is_document_id elems.

(** The records of a list of elements, one per qualifying element. *)
Definition records_of (elems : list ET.Element) : list entry :=
  omap record_of (document_ids elems).

(** The entries, and the values, of one tier, in the order of the list. *)
Definition of_tier (t : nat) (l : list entry) : list entry :=
  List.filter (fun e => fst e =? t) l.

Definition values_of_tier (t : nat) (l : list entry) : list string :=
  map snd (of_tier t l).

Definition tier_le (a b : entry) : Prop := fst a <= fst b.

(** [doc_id] with [child] as its only child. *)
Definition with_only_child (doc_id child : ET.Element) : ET.Element :=
  ET.mkElement (ET.tag doc_id) (ET.attrib doc_id) (ET.text doc_id) [child].



(** The message of the [ValueError] of line 95. *)
Definition invalid_input_message : string :=
  "Input must be either the path to an existing file or an XML string starting with '<'.".

(** ** Sample documents *)

Module Samples.

Definition doc_number (txt : string) : ET.Element :=
  ET.mkElement "doc-number" ∅ (Some txt) [].

Definition document_id (attrs : list (string * string))
  (cs : list ET.Element) : ET.Element :=
  ET.mkElement "document-id" (list_to_map attrs) None cs.

(** The first example scenario of the specification (its attribute
    values written between apostrophes). *)
Definition scenario_1_text : string :=
  "<root><document-id format='epo' load-source='docdb'><doc-number>999000888</doc-number></document-id><document-id format='original' load-source='patent-office'><doc-number>66667777</doc-number></document-id></root>".

Definition scenario_1_root : ET.Element :=
  ET.mkElement "root" ∅ None
    [ document_id [("format", "epo"); ("load-source", "docdb")]
        [doc_number "999000888"];
      document_id [("format", "original"); ("load-source", "patent-office")]
        [doc_number "66667777"] ].

(** The fifth scenario: the closing tags are missing. *)
Definition scenario_5_text : string :=
  "<root><document-id><doc-number>12345</root>".

(** A document whose root is itself a [document-id]. *)
Definition lone_document_id_text : string :=
  "<document-id><doc-number>12345</doc-number></document-id>".

Definition lone_document_id : ET.Element :=
  document_id [] [doc_number "12345"].

(** A [document-id] with a blank [doc-number] followed by a second one. *)
Definition two_doc_numbers : ET.Element :=
  document_id [("format", "epo")] [doc_number "   "; doc_number "LATER"].

(** Attributes with white space around the expected value. *)
Definition padded_attributes : ET.Element :=
  document_id [("format", " epo"); ("load-source", "patent-office ")]
    [doc_number " 12345 "].

(** The parser on the sample texts; any other text is reported as a
    syntax error. *)
Definition sample_parser (xml : string) : ET.ParseResult :=
  if String.eqb xml scenario_1_text then ET.Parsed scenario_1_root
  else if String.eqb xml lone_document_id_text then ET.Parsed lone_document_id
  else if String.eqb xml scenario_5_text
       then ET.ParseError "mismatched tag: line 1, column 38"
  else ET.ParseError "syntax error: line 1, column 0".

(** A file system without any file, and one with a single file. *)
Definition no_files : FileSystem := fun _ => Absent.

Definition one_file (name content : string) : FileSystem :=
  fun path => if String.eqb path name then Readable content else Absent.

(** The first [document-id] of the first scenario, alone and with the
    attributes and children a full record carries. *)
Definition plain_record : ET.Element :=
  document_id [("format", "epo"); ("load-source", "docdb")]
    [doc_number "999000888"].

Definition full_record : ET.Element :=
  ET.mkElement "document-id"
    (list_to_map [("mxw-id", "ABC123"); ("load-source", "docdb");
                  ("format", "epo")])
    (Some " ")
    [ ET.mkElement "country" ∅ (Some "US") [];
      doc_number "999000888";
      ET.mkElement "kind" ∅ (Some "A") [];
      ET.mkElement "date" ∅ (Some "20051213") [] ].



(** A name of 300 characters, and a file system that refuses the names
    of more than 255: [stat] fails with [ENAMETOOLONG]. *)
Definition long_name : string := str_mul "a" 300.

Definition name_too_long (path : string) : string :=
  "[Errno 36] File name too long: '" +:+ path +:+ "'".

Definition short_names_only : FileSystem :=
  fun path =>
    if 255 <? String.length path then Inaccessible (name_too_long path)
    else Absent.

(** A file system whose only entry is a directory. *)
Definition one_directory (name : string) : FileSystem :=
  fun path =>
    if String.eqb path name
    then Unreadable ("[Errno 21] Is a directory: '" +:+ name +:+ "'")
    else Absent.

End Samples.

(** * Facts about the string methods *)

Section StringFacts.
Import PyStr.

Lemma append_cons c (s t : string) : String c s +:+ t = String c (s +:+ t).
Proof. reflexivity. Qed.

Lemma append_empty_l (s : string) : "" +:+ s = s.
Proof. reflexivity. Qed.

Lemma append_empty_r (s : string) : s +:+ "" = s.
Proof. induction s as [|c s IH]; [reflexivity |]. now rewrite append_cons, IH. Qed.




Lemma truthy_empty s : truthy s = false <-> s = "".
Proof. destruct s; simpl; split; intros; (reflexivity || discriminate). Qed.

Lemma all_space_truthy s : all_space s = false -> truthy s = true.
Proof. destruct s; simpl; [discriminate | reflexivity]. Qed.

Lemma lstrip_split s :
  exists l, all_space l = true /\ s = l +:+ lstrip s.
Proof.
  induction s as [|c s [l [Hl Hs]]]; simpl.
  - now exists "".
  - destruct (isspace c) eqn:Hc.
    + exists (String c l). simpl. rewrite Hc, Hl.
      split; [reflexivity |]. rewrite append_cons. now f_equal.
    + now exists "".
Qed.

Lemma rstrip_split s :
  exists r, all_space r = true /\ s = rstrip s +:+ r.
Proof.
  induction s as [|c s [r [Hr Hs]]]; simpl.
  - now exists "".
  - destruct (rstrip s) as [|d u] eqn:Hu.
    + rewrite append_empty_l in Hs. subst r.
      destruct (isspace c) eqn:Hc.
      * exists (String c s). simpl. now rewrite Hc, Hr.
      * exists s. now rewrite append_cons.
    + exists r. split; [assumption |].
      rewrite append_cons. now f_equal.
Qed.

Lemma first_char_lstrip s c :
  first_char (lstrip s) = Some c -> isspace c = false.
Proof.
  induction s as [|d s IH]; simpl; [discriminate |].
  destruct (isspace d) eqn:Hd; [exact IH |].
  simpl. congruence.
Qed.

Lemma last_char_rstrip s c :
  last_char (rstrip s) = Some c -> isspace c = false.
Proof.
  revert c. induction s as [|d s IH]; simpl; [discriminate |].
  intros c. destruct (rstrip s) as [|e u] eqn:Hu.
  - destruct (isspace d) eqn:Hd; simpl; [discriminate | congruence].
  - exact (IH c).
Qed.

Lemma first_char_rstrip s c :
  first_char (rstrip s) = Some c -> first_char s = Some c.
Proof.
  destruct s as [|d s]; simpl; [discriminate |].
  destruct (rstrip s); [destruct (isspace d) |]; simpl; congruence.
Qed.

Lemma rstrip_empty s : rstrip s = "" <-> all_space s = true.
Proof.
  induction s as [|d s IH]; simpl; [easy |].
  destruct (rstrip s) as [|e u].
  - destruct (isspace d); simpl; split; try easy.
    intros _. now apply IH.
  - split; [discriminate |].
    intros H. apply andb_prop in H as [_ H]. apply IH in H. discriminate.
Qed.

Lemma lstrip_all_space s : all_space (lstrip s) = all_space s.
Proof.
  induction s as [|d s IH]; simpl; [reflexivity |].
  destruct (isspace d) eqn:Hd; simpl; [exact IH | now rewrite Hd].
Qed.

Lemma strip_empty s : strip s = "" <-> all_space s = true.
Proof. unfold strip. rewrite rstrip_empty. now rewrite lstrip_all_space. Qed.

Lemma strip_truthy s : truthy (strip s) = negb (all_space s).
Proof.
  destruct (all_space s) eqn:Hs; simpl.
  - apply strip_empty in Hs. now rewrite Hs.
  - destruct (truthy (strip s)) eqn:Ht; [reflexivity |].
    apply truthy_empty, strip_empty in Ht. congruence.
Qed.

(** [strip] removes the white space at both ends and nothing else. *)
Lemma strip_trimmed s : trimmed_of (strip s) s.
Proof.
  unfold trimmed_of, strip. repeat split.
  - destruct (lstrip_split s) as [l [Hl Hs]].
    destruct (rstrip_split (lstrip s)) as [r [Hr Hs']].
    exists l, r. repeat split; try assumption.
    now rewrite <- Hs', <- Hs.
  - intros c Hc. apply first_char_rstrip in Hc.
    now apply first_char_lstrip in Hc.
  - apply last_char_rstrip.
Qed.

Lemma lstrip_app_space l s : all_space l = true -> lstrip (l +:+ s) = lstrip s.
Proof.
  induction l as [|c l IH]; [reflexivity |].
  intros H. simpl in H. apply andb_prop in H as [Hc Hl].
  change (String c l +:+ s) with (String c (l +:+ s)).
  simpl. rewrite Hc. now apply IH.
Qed.

Lemma lstrip_first_char s :
  (forall c, first_char s = Some c -> isspace c = false) -> lstrip s = s.
Proof.
  destruct s as [|c s]; [reflexivity |].
  intros H. simpl. now rewrite (H c eq_refl).
Qed.

Lemma rstrip_all_space r : all_space r = true -> rstrip r = "".
Proof. apply rstrip_empty. Qed.

Lemma last_char_cons c s :
  s <> "" -> last_char (String c s) = last_char s.
Proof. destruct s; [congruence | reflexivity]. Qed.

Lemma rstrip_app_space s r :
  all_space r = true ->
  (forall c, last_char s = Some c -> isspace c = false) ->
  rstrip (s +:+ r) = s.
Proof.
  intros Hr. induction s as [|c s IH]; intros Hlast.
  - now apply rstrip_all_space.
  - change (String c s +:+ r) with (String c (s +:+ r)).
    cbn [rstrip]. destruct s as [|d s].
    + rewrite append_empty_l, (rstrip_all_space r Hr).
      now rewrite (Hlast c eq_refl).
    + rewrite IH; [reflexivity |].
      intros e He. apply Hlast. now rewrite last_char_cons.
Qed.

(** ... and [strip s] is the only text that is [s] trimmed. *)
Lemma trimmed_unique v s : trimmed_of v s -> v = strip s.
Proof.
  intros [(l & r & Hl & Hr & ->) [Hfirst Hlast]].
  unfold strip. rewrite (lstrip_app_space l _ Hl).
  destruct v as [|c v].
  - rewrite append_empty_l. symmetry. apply rstrip_all_space.
    now rewrite lstrip_all_space.
  - rewrite lstrip_first_char.
    + symmetry. now apply rstrip_app_space.
    + change (String c v +:+ r) with (String c (v +:+ r)).
      intros e He. apply Hfirst. exact He.
Qed.

End StringFacts.

(** * Facts about case *)

Section CaseFacts.
Import PyStr.

Lemma ascii_eqb_nat (a b : ascii) :
  Ascii.eqb a b = (nat_of_ascii a =? nat_of_ascii b).
Proof.
  destruct (Ascii.eqb_spec a b) as [->|Hne].
  - now rewrite Nat.eqb_refl.
  - symmetry. apply Nat.eqb_neq. intros Heq. apply Hne.
    rewrite <- (ascii_nat_embedding a), <- (ascii_nat_embedding b).
    now rewrite Heq.
Qed.

Lemma isupper_bound c : isupper c = true -> nat_of_ascii c + 32 < 256.
Proof.
  unfold isupper.
  rewrite !orb_true_iff, !andb_true_iff, !Nat.leb_le. lia.
Qed.

Lemma lower_char_nat c :
  nat_of_ascii (lower_char c)
  = if isupper c then nat_of_ascii c + 32 else nat_of_ascii c.
Proof.
  unfold lower_char. destruct (isupper c) eqn:Hc; [| reflexivity].
  apply nat_ascii_embedding. now apply isupper_bound.
Qed.

Ltac bool_to_prop H :=
  rewrite ?orb_true_iff, ?orb_false_iff, ?andb_true_iff, ?andb_false_iff,
    ?negb_true_iff, ?negb_false_iff, ?Nat.leb_le, ?Nat.leb_gt,
    ?Nat.eqb_eq, ?Nat.eqb_neq in H.

Lemma same_letter_lower a b :
  same_letter a b = Ascii.eqb (lower_char a) (lower_char b).
Proof.
  unfold same_letter.
  rewrite !ascii_eqb_nat, !lower_char_nat.
  destruct (isupper a) eqn:Ha, (isupper b) eqn:Hb;
    unfold isupper in Ha, Hb; bool_to_prop Ha; bool_to_prop Hb; simpl;
    repeat match goal with
           | |- context [?x =? ?y] => destruct (Nat.eqb_spec x y)
           end; simpl; try reflexivity; exfalso; lia.
Qed.

Lemma equal_nocase_lower s t :
  equal_nocase s t = String.eqb (lower s) (lower t).
Proof.
  revert t. induction s as [|a s IH]; intros [|b t]; simpl; try reflexivity.
  rewrite same_letter_lower, IH.
  now destruct (Ascii.eqb (lower_char a) (lower_char b)).
Qed.

(** Against a constant in lower case, comparing up to case is comparing
    the lower-cased text. *)
Lemma equal_nocase_constant s t :
  lower t = t -> String.eqb (lower s) t = equal_nocase s t.
Proof. intros Ht. now rewrite equal_nocase_lower, Ht. Qed.

Lemma get_priority_table f l :
  _get_priority f l
  = tier_table (String.eqb f "epo") (String.eqb l "patent-office").
Proof.
  unfold _get_priority, tier_table.
  now destruct (String.eqb f "epo"), (String.eqb l "patent-office").
Qed.

Lemma lowered_attribute_matches elem key expected :
  lower expected = expected -> expected <> "" ->
  String.eqb (lower (ET.get elem key "")) expected
  = attribute_matches elem key expected.
Proof.
  intros Hlow Hne. unfold ET.get, attribute_matches.
  destruct (ET.attrib elem !! key) as [v|]; simpl.
  - now apply equal_nocase_constant.
  - destruct expected; [congruence | reflexivity].
Qed.

Lemma assigned_priority_tier doc_id : assigned_priority doc_id = tier_of doc_id.
Proof.
  unfold assigned_priority, tier_of, format_is_epo,
    load_source_is_patent_office.
  rewrite get_priority_table.
  now rewrite !lowered_attribute_matches by (reflexivity || discriminate).
Qed.

End CaseFacts.

(** * Facts about the traversal *)

Section TraversalFacts.

(** Induction on trees, with the hypothesis on every child. *)
Lemma Element_tree_ind (P : ET.Element -> Prop) :
  (forall t a x cs, Forall P cs -> P (ET.mkElement t a x cs)) ->
  forall e, P e.
Proof.
  intros step.
  fix IH 1.
  intros [t a x cs].
  apply step.
  induction cs as [|c cs IHcs]; constructor.
  - apply IH.
  - exact IHcs.
Qed.

Lemma filter_flat_map {A B} (p : B -> bool) (g : A -> list B) (l : list A) :
  List.filter p (flat_map g l) = flat_map (fun a => List.filter p (g a)) l.
Proof.
  induction l as [|a l IH]; simpl; [reflexivity |].
  now rewrite List.filter_app, IH.
Qed.

Lemma flat_map_Forall_ext {A B} (f g : A -> list B) (l : list A) :
  Forall (fun a => f a = g a) l -> flat_map f l = flat_map g l.
Proof.
  induction 1 as [|a l Ha _ IH]; simpl; [reflexivity |].
  now rewrite Ha, IH.
Qed.

(** [iter] selects, in document order, the elements with the tag. *)
Lemma iter_preorder tg e :
  ET.iter tg e
  = List.filter (fun x => String.eqb (ET.tag x) tg) (ET.preorder e).
Proof.
  induction e as [t a x cs IH] using Element_tree_ind.
  simpl. rewrite filter_flat_map.
  rewrite (flat_map_Forall_ext _ _ _ IH).
  now destruct (String.eqb t tg).
Qed.

(** [findall('.//tag')] selects them among the elements below the root. *)
Lemma findall_descendants_filter tg root :
  ET.findall_descendants tg root
  = List.filter (fun x => String.eqb (ET.tag x) tg) (ET.descendants root).
Proof.
  unfold ET.findall_descendants, ET.descendants.
  rewrite filter_flat_map. apply flat_map_Forall_ext.
  apply Forall_forall. intros e _. apply iter_preorder.
Qed.

Lemma preorder_root e : ET.preorder e = e :: ET.descendants e.
Proof. now destruct e. Qed.

(** One turn of the loop appends the record of the element, if any. *)
Lemma loop_body_record entries doc_id :
  loop_body entries doc_id
  = entries ++ match record_of doc_id with Some r => [r] | None => [] end.
Proof.
  unfold loop_body, record_of, doc_number_text.
  fold (assigned_priority doc_id). rewrite assigned_priority_tier.
  destruct (ET.find "doc-number" doc_id) as [child|];
    [| now rewrite app_nil_r].
  destruct (ET.text child) as [t|]; [| now rewrite app_nil_r].
  rewrite strip_truthy, negb_involutive.
  destruct (PyStr.all_space t) eqn:Ht.
  - destruct (negb (PyStr.truthy t)); now rewrite app_nil_r.
  - now rewrite (all_space_truthy t Ht).
Qed.

Lemma fold_loop_body elems entries :
  fold_left loop_body elems entries = entries ++ omap record_of elems.
Proof.
  revert entries. induction elems as [|e elems IH]; intros entries; simpl.
  - now rewrite app_nil_r.
  - rewrite IH, loop_body_record.
    destruct (record_of e); simpl; now rewrite <- app_assoc.
Qed.

(** The loop collects the records of the [document-id] elements below
    the root, in document order. *)
Lemma collect_entries_records root :
  collect_entries root = records_of (ET.descendants root).
Proof.
  unfold collect_entries, records_of, document_ids.
  now rewrite fold_loop_body, findall_descendants_filter.
Qed.

End TraversalFacts.

(** * Facts about the sort *)

Section SortFacts.

Lemma of_tier_cons t x l :
  of_tier t (x :: l) = if fst x =? t then x :: of_tier t l else of_tier t l.
Proof. reflexivity. Qed.

Lemma of_tier_app t l l' : of_tier t (l ++ l') = of_tier t l ++ of_tier t l'.
Proof. apply List.filter_app. Qed.

Lemma of_tier_insert t x l :
  of_tier t (insert_by_key x l) = of_tier t (x :: l).
Proof.
  induction l as [|y l IH]; simpl; [reflexivity |].
  destruct (Nat.ltb_spec (fst y) (fst x)) as [Hlt|Hge]; [| reflexivity].
  rewrite !of_tier_cons, IH, of_tier_cons.
  destruct (Nat.eqb_spec (fst x) t), (Nat.eqb_spec (fst y) t);
    try reflexivity.
  lia.
Qed.

(** Stability: the entries of each tier keep their order. *)
Lemma of_tier_sort t l : of_tier t (sort_by_key l) = of_tier t l.
Proof.
  induction l as [|x l IH]; simpl; [reflexivity |].
  now rewrite of_tier_insert, !of_tier_cons, IH.
Qed.

Lemma insert_by_key_perm x l : Permutation (insert_by_key x l) (x :: l).
Proof.
  induction l as [|y l IH]; simpl; [reflexivity |].
  destruct (fst y <? fst x); [| reflexivity].
  rewrite IH. apply perm_swap.
Qed.

Lemma sort_by_key_perm l : Permutation (sort_by_key l) l.
Proof.
  induction l as [|x l IH]; simpl; [reflexivity |].
  now rewrite insert_by_key_perm, IH.
Qed.

Lemma insert_by_key_sorted x l :
  StronglySorted tier_le l -> StronglySorted tier_le (insert_by_key x l).
Proof.
  induction 1 as [|y l Hs IH Hy]; simpl.
  - repeat constructor.
  - destruct (Nat.ltb_spec (fst y) (fst x)) as [Hlt|Hge].
    + constructor; [exact IH |].
      rewrite insert_by_key_perm. constructor; [unfold tier_le; lia | exact Hy].
    + constructor; [now constructor |].
      constructor; [exact Hge |].
      eapply Forall_impl; [exact Hy |].
      unfold tier_le. intros z Hz. lia.
Qed.

Lemma sort_by_key_sorted l : StronglySorted tier_le (sort_by_key l).
Proof.
  induction l as [|x l IH]; simpl; [constructor |].
  now apply insert_by_key_sorted.
Qed.

Lemma of_tier_below t x l :
  Forall (tier_le x) l -> t < fst x -> of_tier t l = [].
Proof.
  induction 1 as [|y l Hy _ IH]; intros Ht; [reflexivity |].
  rewrite of_tier_cons, (IH Ht).
  destruct (Nat.eqb_spec (fst y) t); [| reflexivity].
  unfold tier_le in Hy. lia.
Qed.

Lemma of_tier_head x l : of_tier (fst x) (x :: l) = x :: of_tier (fst x) l.
Proof. now rewrite of_tier_cons, Nat.eqb_refl. Qed.

(** Two sorted lists with the same entries, in the same order, in every
    tier are the same list: a stable sort has one possible result. *)
Lemma sorted_stable_unique l1 l2 :
  StronglySorted tier_le l1 -> StronglySorted tier_le l2 ->
  (forall t, of_tier t l1 = of_tier t l2) -> l1 = l2.
Proof.
  intros S1. revert l2.
  induction S1 as [|x l1 S1 IH Hx]; intros l2 S2 Heq.
  - destruct l2 as [|y l2]; [reflexivity |].
    specialize (Heq (fst y)). rewrite of_tier_head in Heq. discriminate.
  - destruct S2 as [|y l2 S2 Hy].
    + specialize (Heq (fst x)). rewrite of_tier_head in Heq. discriminate.
    + assert (Hk : fst x = fst y).
      { destruct (Nat.lt_trichotomy (fst x) (fst y)) as [Hlt|[He|Hgt]];
          [| exact He |].
        - specialize (Heq (fst x)). rewrite of_tier_head in Heq.
          rewrite (of_tier_below (fst x) y (y :: l2)) in Heq;
            [discriminate | | exact Hlt].
          constructor; [unfold tier_le; lia | exact Hy].
        - specialize (Heq (fst y)). rewrite of_tier_head in Heq.
          rewrite (of_tier_below (fst y) x (x :: l1)) in Heq;
            [discriminate | | exact Hgt].
          constructor; [unfold tier_le; lia | exact Hx]. }
      assert (Hxy : x = y).
      { specialize (Heq (fst x)). rewrite of_tier_head in Heq.
        rewrite Hk, of_tier_head in Heq. congruence. }
      subst y. f_equal. apply IH; [exact S2 |].
      intros t. specialize (Heq t). rewrite !of_tier_cons in Heq.
      destruct (fst x =? t); congruence.
Qed.

(** A sorted list with tiers 1 to 4 is its four tiers one after the
    other. *)
Lemma sorted_four_tiers l :
  StronglySorted tier_le l ->
  Forall (fun e => 1 <= fst e <= 4) l ->
  l = of_tier 1 l ++ of_tier 2 l ++ of_tier 3 l ++ of_tier 4 l.
Proof.
  induction 1 as [|x l S IH Hx]; intros Hr; [reflexivity |].
  inversion Hr as [|? ? Hx14 Hr']; subst.
  specialize (IH Hr').
  assert (Hk : fst x = 1 \/ fst x = 2 \/ fst x = 3 \/ fst x = 4) by lia.
  rewrite !of_tier_cons.
  destruct Hk as [Hk|[Hk|[Hk|Hk]]]; rewrite Hk; simpl.
  - now f_equal.
  - rewrite (of_tier_below 1 x l Hx) in * by lia.
    simpl in *. now f_equal.
  - rewrite (of_tier_below 1 x l Hx), (of_tier_below 2 x l Hx) in * by lia.
    simpl in *. now f_equal.
  - rewrite (of_tier_below 1 x l Hx), (of_tier_below 2 x l Hx),
      (of_tier_below 3 x l Hx) in * by lia.
    simpl in *. now f_equal.
Qed.

(** Hence any stable sort on the tier returns what [sort_by_key] does. *)
Lemma stable_sort_is_sort_by_key l sorted :
  StronglySorted tier_le sorted ->
  (forall t, of_tier t sorted = of_tier t l) ->
  sorted = sort_by_key l.
Proof.
  intros Hs Hst. apply sorted_stable_unique;
    [exact Hs | apply sort_by_key_sorted |].
  intros t. now rewrite Hst, of_tier_sort.
Qed.

Lemma tier_table_range a b : 1 <= tier_table a b <= 4.
Proof. destruct a, b; simpl; lia. Qed.

Lemma records_of_range elems :
  Forall (fun e => 1 <= fst e <= 4) (records_of elems).
Proof.
  unfold records_of. induction (document_ids elems) as [|d ds IH]; simpl.
  - constructor.
  - unfold record_of at 1. destruct (doc_number_text d); [| exact IH].
    constructor; [apply tier_table_range | exact IH].
Qed.

Lemma sort_by_key_four_tiers l :
  Forall (fun e => 1 <= fst e <= 4) l ->
  map snd (sort_by_key l)
  = values_of_tier 1 l ++ values_of_tier 2 l
    ++ values_of_tier 3 l ++ values_of_tier 4 l.
Proof.
  intros Hr. unfold values_of_tier.
  rewrite <- !map_app, <- !(of_tier_sort _ l).
  f_equal. apply sorted_four_tiers; [apply sort_by_key_sorted |].
  eapply Permutation_Forall; [| exact Hr].
  symmetry. apply sort_by_key_perm.
Qed.

End SortFacts.

(** * Facts about the pipeline *)

Section PipelineFacts.

Variable fromstring : string -> ET.ParseResult.

Lemma read_literal fs source :
  PyStr.startswith (PyStr.strip source) "<" = true ->
  read_xml_content fs source = Ok source.
Proof. intros H. unfold read_xml_content. now rewrite H. Qed.

Lemma read_path fs source :
  PyStr.startswith (PyStr.strip source) "<" = false ->
  read_xml_content fs source
  = match fs source with
    | Readable content => Ok content
    | Unreadable reason =>
        Raise (FileReadError
                 ("Failed to read " +:+ source +:+ ": " +:+ reason))
    | Absent => Raise (ValueError invalid_input_message)
    | Inaccessible reason => Raise (OSError reason)
    end.
Proof.
  intros H. unfold read_xml_content, exists_, read_text. rewrite H.
  now destruct (fs source).
Qed.

Lemma extract_read_error fs source e :
  read_xml_content fs source = Raise e ->
  extract_doc_numbers fromstring fs source = Raise e.
Proof. intros H. unfold extract_doc_numbers. now rewrite H. Qed.

Lemma extract_parse_error fs source xml diagnostic :
  read_xml_content fs source = Ok xml ->
  fromstring xml = ET.ParseError diagnostic ->
  extract_doc_numbers fromstring fs source
  = Raise (XMLParsingError ("Invalid XML: " +:+ diagnostic)).
Proof.
  intros Hr Hp. unfold extract_doc_numbers, parse_xml.
  rewrite Hr. simpl. now rewrite Hp.
Qed.

Lemma extract_parsed fs source xml root :
  read_xml_content fs source = Ok xml ->
  fromstring xml = ET.Parsed root ->
  extract_doc_numbers fromstring fs source = Ok (doc_numbers_of_root root).
Proof.
  intros Hr Hp. unfold extract_doc_numbers, parse_xml.
  rewrite Hr. simpl. now rewrite Hp.
Qed.

(** After a successful read, the only error left is the parsing error. *)
Lemma extract_after_read fs source xml :
  read_xml_content fs source = Ok xml ->
  (exists out, extract_doc_numbers fromstring fs source = Ok out)
  \/ (exists msg,
        extract_doc_numbers fromstring fs source
        = Raise (XMLParsingError msg)).
Proof.
  intros Hr. destruct (fromstring xml) as [root|d] eqn:Hp.
  - left. eexists. now apply (extract_parsed fs source xml root).
  - right. eexists. now apply (extract_parse_error fs source xml d).
Qed.

Lemma length_records elems :
  length (omap record_of elems) = length (List.filter has_doc_number elems).
Proof.
  induction elems as [|d ds IH]; [reflexivity |].
  cbn [omap list_omap List.filter]. fold (omap record_of ds).
  unfold record_of at 1, has_doc_number at 1.
  destruct (doc_number_text d); cbn [length]; now rewrite IH.
Qed.

Lemma doc_numbers_of_root_length root :
  length (doc_numbers_of_root root)
  = length (List.filter has_doc_number (document_ids (ET.descendants root))).
Proof.
  unfold doc_numbers_of_root.
  rewrite length_map, (Permutation_length (sort_by_key_perm _)).
  rewrite collect_entries_records. apply length_records.
Qed.

Lemma doc_numbers_of_root_perm root :
  Permutation (doc_numbers_of_root root)
              (map snd (records_of (ET.descendants root))).
Proof.
  unfold doc_numbers_of_root. rewrite collect_entries_records.
  apply Permutation_map, sort_by_key_perm.
Qed.

End PipelineFacts.

(** * The specification *)

(** ** Classification *)





(** ** Scanning *)

(** C4.  A [document-id] without a direct [doc-number] child, or whose
    first such child has no text, or a text that is empty or white space
    only, adds no record.  Otherwise it adds exactly one record, whose value
    is the text without its leading and trailing white space (and is not
    empty).  A text is white space only exactly when trimming leaves
    nothing. *)
Theorem doc_number_record (doc_id : ET.Element) (entries : list entry) :
  (ET.find "doc-number" doc_id = None -> loop_body entries doc_id = entries)
  /\ (forall child,
        ET.find "doc-number" doc_id = Some child ->
        ET.text child = None ->
        loop_body entries doc_id = entries)
  /\ (forall child t,
        ET.find "doc-number" doc_id = Some child ->
        ET.text child = Some t ->
        PyStr.all_space t = true ->
        loop_body entries doc_id = entries)
  /\ (forall child t,
        ET.find "doc-number" doc_id = Some child ->
        ET.text child = Some t ->
        PyStr.all_space t = false ->
        loop_body entries doc_id
        = entries ++ [(tier_of doc_id, PyStr.strip t)]
        /\ trimmed_of (PyStr.strip t) t
        /\ PyStr.truthy (PyStr.strip t) = true)
  /\ (forall t, PyStr.all_space t = true <-> PyStr.strip t = "").
Proof.
  rewrite loop_body_record. unfold record_of, doc_number_text.
  split; [| split; [| split; [| split]]].
  - intros ->. apply app_nil_r.
  - intros child -> ->. apply app_nil_r.
  - intros child t -> -> ->. apply app_nil_r.
  - intros child t -> -> Ht. rewrite Ht.
    split; [reflexivity |]. split; [apply strip_trimmed |].
    now rewrite strip_truthy, Ht.
  - intros t. symmetry. apply strip_empty.
Qed.

Lemma doc_number_record_witness :
  loop_body [] Samples.padded_attributes = [(4, "12345")].
Proof.
  destruct (doc_number_record Samples.padded_attributes [])
    as (_ & _ & _ & H & _).
  destruct (H (Samples.doc_number " 12345 ") " 12345 "
              eq_refl eq_refl eq_refl) as [-> _].
  reflexivity.
Defined.

Lemma find_first {A} (p : A -> bool) (before after : list A) (first : A) :
  Forall (fun a => p a = false) before -> p first = true ->
  List.find p (before ++ first :: after) = Some first.
Proof.
  induction 1 as [|a before Ha _ IH]; intros Hp; simpl.
  - now rewrite Hp.
  - rewrite Ha. now apply IH.
Qed.

(** C9.  Of several direct [doc-number] children only the first one, in
    document order, is consulted: the element behaves as if that child were
    its only child.  When the text of the first one is absent, empty or
    white space only, no record is added whatever follows it, and a record
    that is added carries the trimmed text of the first one. *)
Theorem first_doc_number_only
  (doc_id first : ET.Element) (before after : list ET.Element)
  (entries : list entry) :
  ET.children doc_id = before ++ first :: after ->
  Forall (fun c => String.eqb (ET.tag c) "doc-number" = false) before ->
  String.eqb (ET.tag first) "doc-number" = true ->
  ET.find "doc-number" doc_id = Some first
  /\ loop_body entries doc_id
     = loop_body entries (with_only_child doc_id first)
  /\ loop_body entries doc_id
     = entries ++ match ET.text first with
                  | Some t =>
                      if PyStr.all_space t then []
                      else [(tier_of doc_id, PyStr.strip t)]
                  | None => []
                  end.
Proof.
  intros Hc Hb Hf.
  assert (Hfind : ET.find "doc-number" doc_id = Some first).
  { unfold ET.find. rewrite Hc. now apply find_first. }
  assert (Hfind' :
            ET.find "doc-number" (with_only_child doc_id first) = Some first).
  { unfold ET.find, with_only_child. simpl. now rewrite Hf. }
  split; [exact Hfind |].
  split.
  - unfold loop_body. now rewrite Hfind, Hfind'.
  - rewrite loop_body_record. unfold record_of, doc_number_text.
    rewrite Hfind. destruct (ET.text first) as [t|]; [| reflexivity].
    now destruct (PyStr.all_space t).
Qed.

Lemma first_doc_number_only_witness :
  loop_body [(1, "EARLIER")] Samples.two_doc_numbers = [(1, "EARLIER")].
Proof.
  destruct (first_doc_number_only
              Samples.two_doc_numbers (Samples.doc_number "   ")
              [] [Samples.doc_number "LATER"] [(1, "EARLIER")]
              eq_refl (List.Forall_nil _) eq_refl) as (_ & _ & ->).
  reflexivity.
Defined.

(** C3, as the code has it.  The loop visits the elements named
    [document-id] that lie strictly below the root, at any depth, in
    document order (the root first, then the subtrees of its children from
    left to right), and collects one record for each of them that has one,
    in that order.  The root itself is not among the elements visited. *)
Theorem scan_visits_descendants (root : ET.Element) :
  ET.preorder root = root :: ET.descendants root
  /\ ET.findall_descendants "document-id" root
     = document_ids (ET.descendants root)
  /\ collect_entries root = records_of (ET.descendants root).
Proof.
  split; [apply preorder_root |].
  split; [apply findall_descendants_filter | apply collect_entries_records].
Qed.

(** C3, as stated, would have the records of every [document-id] of the
    tree.  A root that is itself a [document-id] has a record and is not
    visited. *)
Lemma scan_skips_root :
  records_of (ET.preorder Samples.lone_document_id) = [(4, "12345")]
  /\ collect_entries Samples.lone_document_id = []
  /\ doc_numbers_of_root Samples.lone_document_id = [].
Proof. repeat split. Qed.

(** ** Ordering *)

(** C2.  On a source that yields a text the parser accepts, the result is
    the list of the values of the collected entries after a stable sort on
    the tier alone: the sorted entries are a rearrangement of the collected
    ones, in ascending tier, and the entries of any one tier are in the
    order in which they were collected (document order).  In other words
    the result is the values of tier 1, then those of tier 2, of tier 3 and
    of tier 4, each group in document order, the tiers themselves being
    dropped. *)
Theorem result_sorted_by_tier_stable
  (fromstring : string -> ET.ParseResult) (fs : FileSystem)
  (source xml : string) (root : ET.Element) :
  read_xml_content fs source = Ok xml ->
  fromstring xml = ET.Parsed root ->
  exists sorted : list entry,
    extract_doc_numbers fromstring fs source = Ok (map snd sorted)
    /\ Permutation sorted (collect_entries root)
    /\ StronglySorted tier_le sorted
    /\ (forall t, of_tier t sorted = of_tier t (collect_entries root))
    /\ map snd sorted
       = values_of_tier 1 (collect_entries root)
         ++ values_of_tier 2 (collect_entries root)
         ++ values_of_tier 3 (collect_entries root)
         ++ values_of_tier 4 (collect_entries root).
Proof.
  intros Hr Hp. exists (sort_by_key (collect_entries root)).
  split; [now apply (extract_parsed fromstring fs source xml root) |].
  split; [apply sort_by_key_perm |].
  split; [apply sort_by_key_sorted |].
  split; [intros t; apply of_tier_sort |].
  apply sort_by_key_four_tiers.
  rewrite collect_entries_records. apply records_of_range.
Qed.

Lemma result_sorted_by_tier_stable_witness :
  exists sorted : list entry,
    extract_doc_numbers Samples.sample_parser Samples.no_files
      Samples.scenario_1_text = Ok (map snd sorted)
    /\ Permutation sorted (collect_entries Samples.scenario_1_root)
    /\ StronglySorted tier_le sorted
    /\ (forall t,
          of_tier t sorted = of_tier t (collect_entries Samples.scenario_1_root))
    /\ map snd sorted
       = values_of_tier 1 (collect_entries Samples.scenario_1_root)
         ++ values_of_tier 2 (collect_entries Samples.scenario_1_root)
         ++ values_of_tier 3 (collect_entries Samples.scenario_1_root)
         ++ values_of_tier 4 (collect_entries Samples.scenario_1_root).
Proof.
  apply (result_sorted_by_tier_stable
           Samples.sample_parser Samples.no_files
           Samples.scenario_1_text Samples.scenario_1_text
           Samples.scenario_1_root); reflexivity.
Defined.

(** ** Length of the result *)

(** C5, as the code has it.  On a source that yields a text the parser
    accepts, the call returns a list (it raises nothing).  Its length is the
    number of [document-id] elements strictly below the root whose first
    direct [doc-number] child has a text that is not white space only; its
    values are those of the records of these elements, each as many times
    as it occurs; and it is empty when there is no such element. *)
Theorem result_length
  (fromstring : string -> ET.ParseResult) (fs : FileSystem)
  (source xml : string) (root : ET.Element) :
  read_xml_content fs source = Ok xml ->
  fromstring xml = ET.Parsed root ->
  exists out : list string,
    extract_doc_numbers fromstring fs source = Ok out
    /\ length out
       = length (List.filter has_doc_number
                   (document_ids (ET.descendants root)))
    /\ Permutation out (map snd (records_of (ET.descendants root)))
    /\ (List.filter has_doc_number (document_ids (ET.descendants root)) = []
        -> out = []).
Proof.
  intros Hr Hp. exists (doc_numbers_of_root root).
  split; [now apply (extract_parsed fromstring fs source xml root) |].
  split; [apply doc_numbers_of_root_length |].
  split; [apply doc_numbers_of_root_perm |].
  intros Hnone. apply length_zero_iff_nil.
  now rewrite doc_numbers_of_root_length, Hnone.
Qed.

Lemma result_length_witness :
  exists out : list string,
    extract_doc_numbers Samples.sample_parser Samples.no_files
      Samples.scenario_1_text = Ok out
    /\ length out = 2.
Proof.
  destruct (result_length
              Samples.sample_parser Samples.no_files
              Samples.scenario_1_text Samples.scenario_1_text
              Samples.scenario_1_root eq_refl eq_refl)
    as (out & Hout & Hlen & _).
  exists out. split; [exact Hout | exact Hlen].
Defined.

(** C5, as stated, counts every [document-id] of the document.  A document
    whose root is a [document-id] with a number has one such element, and
    the call returns the empty list. *)
Lemma result_length_misses_root :
  length (List.filter has_doc_number
            (document_ids (ET.preorder Samples.lone_document_id))) = 1
  /\ extract_doc_numbers Samples.sample_parser Samples.no_files
       Samples.lone_document_id_text = Ok [].
Proof. split; reflexivity. Qed.

(** ** Errors *)




(** C8.  When the text of the source is one the parser rejects, the call
    raises [XMLParsingError] with the parser's diagnostic in its message;
    when the parser accepts it, the call returns a list and raises nothing;
    and an error of the reading stage is the error of the call. *)
Theorem parse_errors_are_raised
  (fromstring : string -> ET.ParseResult) (fs : FileSystem)
  (source : string) :
  (forall xml diagnostic,
     read_xml_content fs source = Ok xml ->
     fromstring xml = ET.ParseError diagnostic ->
     extract_doc_numbers fromstring fs source
     = Raise (XMLParsingError ("Invalid XML: " +:+ diagnostic)))
  /\ (forall xml root,
        read_xml_content fs source = Ok xml ->
        fromstring xml = ET.Parsed root ->
        extract_doc_numbers fromstring fs source
        = Ok (doc_numbers_of_root root))
  /\ (forall e,
        read_xml_content fs source = Raise e ->
        extract_doc_numbers fromstring fs source = Raise e).
Proof.
  split; [| split].
  - intros xml d. apply extract_parse_error.
  - intros xml root. apply extract_parsed.
  - intros e. apply extract_read_error.
Qed.

Lemma parse_errors_are_raised_witness :
  extract_doc_numbers Samples.sample_parser Samples.no_files
    Samples.scenario_5_text
  = Raise (XMLParsingError "Invalid XML: mismatched tag: line 1, column 38").
Proof.
  apply (proj1 (parse_errors_are_raised
                  Samples.sample_parser Samples.no_files
                  Samples.scenario_5_text)
           Samples.scenario_5_text "mismatched tag: line 1, column 38");
    reflexivity.
Defined.

(** C6.  The call on [nonexistent.xml], a name that does not start with
    [<], in a file system where no such path exists: the exception raised
    is the [ValueError] of line 95, whose message does not name the path,
    and not [FileReadError]. *)
Theorem nonexistent_path_raises_value_error
  (fromstring : string -> ET.ParseResult) :
  extract_doc_numbers fromstring Samples.no_files "nonexistent.xml"
  = Raise (ValueError
             "Input must be either the path to an existing file or an XML string starting with '<'.").
Proof. reflexivity. Qed.

(** * Further properties of the module *)

(** ** Facts used below *)

Section FurtherFacts.

Variable fromstring : string -> ET.ParseResult.

Lemma extract_ok_inv fs source out :
  extract_doc_numbers fromstring fs source = Ok out ->
  exists xml root,
    read_xml_content fs source = Ok xml
    /\ fromstring xml = ET.Parsed root
    /\ out = doc_numbers_of_root root.
Proof.
  unfold extract_doc_numbers, parse_xml.
  destruct (read_xml_content fs source) as [xml|e]; simpl; [| discriminate].
  destruct (fromstring xml) as [root|d] eqn:Hp; simpl; [| discriminate].
  intros H. exists xml, root. repeat split; congruence.
Qed.

Lemma extract_xml_error_inv fs source msg :
  extract_doc_numbers fromstring fs source = Raise (XMLParsingError msg) ->
  exists xml diagnostic,
    read_xml_content fs source = Ok xml
    /\ fromstring xml = ET.ParseError diagnostic
    /\ msg = "Invalid XML: " +:+ diagnostic.
Proof.
  unfold extract_doc_numbers, parse_xml.
  destruct (read_xml_content fs source) as [xml|e] eqn:Hr; simpl.
  - destruct (fromstring xml) as [root|d] eqn:Hp; simpl; [discriminate |].
    intros H. exists xml, d. repeat split; congruence.
  - intros [= ->].
    destruct (PyStr.startswith (PyStr.strip source) "<") eqn:Hs.
    + rewrite (read_literal fs source Hs) in Hr. discriminate.
    + rewrite (read_path fs source Hs) in Hr.
      destruct (fs source); discriminate.
Qed.

Lemma strip_idempotent s : PyStr.strip (PyStr.strip s) = PyStr.strip s.
Proof.
  symmetry. apply trimmed_unique.
  destruct (strip_trimmed s) as (_ & Hfirst & Hlast).
  repeat split; [| exact Hfirst | exact Hlast].
  exists "", "". repeat split. now rewrite append_empty_l, append_empty_r.
Qed.

Lemma record_value_trimmed d r :
  record_of d = Some r ->
  PyStr.truthy (snd r) = true /\ PyStr.strip (snd r) = snd r.
Proof.
  unfold record_of, doc_number_text.
  destruct (ET.find "doc-number" d) as [c|]; [| discriminate].
  destruct (ET.text c) as [t|]; [| discriminate].
  destruct (PyStr.all_space t) eqn:Ht; [discriminate |].
  intros [= <-]. simpl. split; [| apply strip_idempotent].
  now rewrite strip_truthy, Ht.
Qed.



Lemma records_of_app l l' : records_of (l ++ l') = records_of l ++ records_of l'.
Proof.
  unfold records_of, document_ids. now rewrite List.filter_app, omap_app.
Qed.

End FurtherFacts.

(** ** The returned values *)

Lemma records_values_trimmed elems :
  Forall (fun r : entry =>
            PyStr.truthy (snd r) = true /\ PyStr.strip (snd r) = snd r)
         (records_of elems).
Proof.
  unfold records_of. induction (document_ids elems) as [|d ds IH]; simpl.
  - constructor.
  - destruct (record_of d) as [r|] eqn:Hr; [| exact IH].
    constructor; [now apply (record_value_trimmed d) | exact IH].
Qed.

(** X1.  Every value the call returns is a non-empty text without white
    space at either end: trimming it again changes nothing. *)
Theorem returned_values_are_trimmed
  (fromstring : string -> ET.ParseResult) (fs : FileSystem)
  (source : string) (out : list string) :
  extract_doc_numbers fromstring fs source = Ok out ->
  Forall (fun v => PyStr.truthy v = true /\ PyStr.strip v = v) out.
Proof.
  intros H. apply extract_ok_inv in H as (xml & root & _ & _ & ->).
  unfold doc_numbers_of_root. apply List.Forall_map.
  eapply Permutation_Forall; [symmetry; apply sort_by_key_perm |].
  rewrite collect_entries_records. apply records_values_trimmed.
Qed.

Lemma returned_values_are_trimmed_witness :
  Forall (fun v => PyStr.truthy v = true /\ PyStr.strip v = v)
         ["999000888"; "66667777"].
Proof.
  apply (returned_values_are_trimmed
           Samples.sample_parser Samples.no_files Samples.scenario_1_text).
  reflexivity.
Defined.

(** X2.  When the entries are collected in ascending tier already (all in
    one tier, for instance), the result is the values in document order. *)
Theorem ascending_tiers_keep_document_order (root : ET.Element) :
  StronglySorted tier_le (collect_entries root) ->
  doc_numbers_of_root root = map snd (collect_entries root).
Proof.
  intros Hs. unfold doc_numbers_of_root. f_equal. symmetry.
  now apply stable_sort_is_sort_by_key.
Qed.

Lemma ascending_tiers_keep_document_order_witness :
  doc_numbers_of_root Samples.scenario_1_root
  = map snd (collect_entries Samples.scenario_1_root).
Proof.
  apply ascending_tiers_keep_document_order.
  repeat constructor.
Defined.

(** ** What an element contributes *)

Lemma doc_number_text_bind d :
  doc_number_text d
  = (ET.find "doc-number" d ≫= ET.text)
      ≫= (fun t => if PyStr.all_space t then None else Some t).
Proof.
  unfold doc_number_text.
  destruct (ET.find "doc-number" d) as [c|]; [| reflexivity]. simpl.
  now destruct (ET.text c).
Qed.

(** X3.  The contribution of a [document-id] to the entries depends on
    three things only: its [format] attribute, its [load-source] attribute
    and the text of its first [doc-number] child.  Its other attributes,
    its own text and its other children do not matter. *)
Theorem loop_body_reads_three_things
  (d d' : ET.Element) (entries : list entry) :
  ET.attrib d !! "format" = ET.attrib d' !! "format" ->
  ET.attrib d !! "load-source" = ET.attrib d' !! "load-source" ->
  ET.find "doc-number" d ≫= ET.text = ET.find "doc-number" d' ≫= ET.text ->
  loop_body entries d = loop_body entries d'.
Proof.
  intros Hf Hl Ht. rewrite !loop_body_record. f_equal.
  unfold record_of, tier_of, format_is_epo, load_source_is_patent_office,
    attribute_matches.
  now rewrite !doc_number_text_bind, Hf, Hl, Ht.
Qed.

Lemma loop_body_reads_three_things_witness :
  loop_body [] Samples.full_record = loop_body [] Samples.plain_record.
Proof.
  apply loop_body_reads_three_things; reflexivity.
Defined.



(** X5.  Whatever the [load-source] attributes are, an element whose
    lower-cased [format] is [epo] gets a smaller priority number than an
    element whose lower-cased [format] is anything else, and so comes first
    in the result. *)
Theorem format_outranks_load_source (f l f' l' : string) :
  String.eqb f "epo" = true ->
  String.eqb f' "epo" = false ->
  _get_priority f l < _get_priority f' l'.
Proof.
  intros Hf Hf'. rewrite !get_priority_table, Hf, Hf'.
  destruct (String.eqb l "patent-office"), (String.eqb l' "patent-office");
    simpl; lia.
Qed.

Lemma format_outranks_load_source_witness :
  _get_priority "epo" "docdb" < _get_priority "original" "patent-office".
Proof.
  apply format_outranks_load_source; reflexivity.
Defined.

(** ** The shape of the document *)

(** X6.  The tag, the attributes and the text of the root play no part,
    and the entries of a root are those of its first children followed by
    those of its last children: the scan of a sequence of subtrees is the
    concatenation of their scans. *)
Theorem collect_entries_concatenates
  (t t1 t2 : string) (a a1 a2 : gmap string string)
  (x x1 x2 : option string) (cs1 cs2 : list ET.Element) :
  collect_entries (ET.mkElement t a x (cs1 ++ cs2))
  = collect_entries (ET.mkElement t1 a1 x1 cs1)
    ++ collect_entries (ET.mkElement t2 a2 x2 cs2).
Proof.
  rewrite !collect_entries_records. unfold ET.descendants. simpl.
  now rewrite flat_map_app, records_of_app.
Qed.

(** X7.  Putting a document inside a new root makes its old root an
    element like the others: the entries are then the record of the old
    root, when it is a [document-id] with a number, followed by the entries
    of the document as it was.  In particular the record of a [document-id]
    comes before the records of the ones nested in it. *)
Theorem wrapping_exposes_root
  (t : string) (a : gmap string string) (x : option string)
  (root : ET.Element) :
  collect_entries (ET.mkElement t a x [root])
  = records_of [root] ++ collect_entries root.
Proof.
  rewrite !collect_entries_records. unfold ET.descendants at 1. simpl.
  rewrite app_nil_r, preorder_root.
  change (root :: ET.descendants root) with ([root] ++ ET.descendants root).
  apply records_of_app.
Qed.

(** ** The exceptions of the call *)


(** X15.  The existence test of line 88 is outside the [try]: the call
    raises [OSError] exactly when the trimmed source does not start with
    [<] and the test itself fails, and the exception is the one of the
    test, not a [FileReadError]. *)
Theorem os_error_iff
  (fromstring : string -> ET.ParseResult) (fs : FileSystem)
  (source msg : string) :
  extract_doc_numbers fromstring fs source = Raise (OSError msg)
  <-> PyStr.startswith (PyStr.strip source) "<" = false
      /\ exists_ fs source = Raise (OSError msg).
Proof.
  destruct (PyStr.startswith (PyStr.strip source) "<") eqn:Hs.
  - split; [| intros [? _]; discriminate].
    intros H. exfalso.
    destruct (extract_after_read fromstring fs source source
                (read_literal fs source Hs)) as [[o Ho]|[m Hm]]; congruence.
  - pose proof (read_path fs source Hs) as Hr. unfold exists_.
    destruct (fs source) as [|content|reason|reason] eqn:Hfs.
    + rewrite (extract_read_error fromstring fs source _ Hr).
      split; [discriminate | intros [_ ?]; discriminate].
    + split; [| intros [_ ?]; discriminate].
      intros H. exfalso.
      destruct (extract_after_read fromstring fs source content Hr)
        as [[o Ho]|[m Hm]]; congruence.
    + rewrite (extract_read_error fromstring fs source _ Hr).
      split; [discriminate | intros [_ ?]; discriminate].
    + rewrite (extract_read_error fromstring fs source _ Hr). split.
      * intros [= <-]. split; reflexivity.
      * intros [_ [= <-]]. reflexivity.
Qed.

Lemma os_error_iff_witness :
  extract_doc_numbers Samples.sample_parser Samples.short_names_only
    Samples.long_name
  = Raise (OSError (Samples.name_too_long Samples.long_name)).
Proof.
  apply (proj2 (os_error_iff
                  Samples.sample_parser Samples.short_names_only
                  Samples.long_name _)).
  split; reflexivity.
Defined.

(** X9.  [FileReadError] is raised exactly when the trimmed source does
    not start with [<] and names a path that exists and cannot be read; its
    message then holds the path as it was given and the text of the
    exception of [read_text]. *)
Theorem file_read_error_iff
  (fromstring : string -> ET.ParseResult) (fs : FileSystem)
  (source msg : string) :
  extract_doc_numbers fromstring fs source = Raise (FileReadError msg)
  <-> PyStr.startswith (PyStr.strip source) "<" = false
      /\ exists reason,
           fs source = Unreadable reason
           /\ msg = "Failed to read " +:+ source +:+ ": " +:+ reason.
Proof.
  destruct (PyStr.startswith (PyStr.strip source) "<") eqn:Hs.
  - split; [| intros [? _]; discriminate].
    intros H. exfalso.
    destruct (extract_after_read fromstring fs source source
                (read_literal fs source Hs)) as [[o Ho]|[m Hm]]; congruence.
  - pose proof (read_path fs source Hs) as Hr.
    destruct (fs source) as [|content|reason|reason] eqn:Hfs.
    + rewrite (extract_read_error fromstring fs source _ Hr).
      split; [discriminate | intros (_ & r & ? & _); discriminate].
    + split; [| intros (_ & r & ? & _); discriminate].
      intros H. exfalso.
      destruct (extract_after_read fromstring fs source content Hr)
        as [[o Ho]|[m Hm]]; congruence.
    + rewrite (extract_read_error fromstring fs source _ Hr). split.
      * intros [= <-]. split; [reflexivity |]. now exists reason.
      * intros (_ & r & [= <-] & ->). reflexivity.
    + rewrite (extract_read_error fromstring fs source _ Hr).
      split; [discriminate | intros (_ & r & ? & _); discriminate].
Qed.

Lemma file_read_error_iff_witness :
  extract_doc_numbers Samples.sample_parser
    (Samples.one_directory "test_data") "test_data"
  = Raise (FileReadError
             "Failed to read test_data: [Errno 21] Is a directory: 'test_data'").
Proof.
  apply (proj2 (file_read_error_iff
                  Samples.sample_parser (Samples.one_directory "test_data")
                  "test_data" _)).
  split; [reflexivity |].
  exists "[Errno 21] Is a directory: 'test_data'". split; reflexivity.
Defined.

(** X10.  [XMLParsingError] is raised exactly when the source yields a
    text and the parser rejects that text; the message is [Invalid XML: ]
    followed by the parser's diagnostic.  A source that yields no text (a
    name that is neither XML nor a path that exists) is never reported as
    invalid XML. *)
Theorem xml_parsing_error_iff
  (fromstring : string -> ET.ParseResult) (fs : FileSystem)
  (source msg : string) :
  extract_doc_numbers fromstring fs source = Raise (XMLParsingError msg)
  <-> exists xml diagnostic,
        read_xml_content fs source = Ok xml
        /\ fromstring xml = ET.ParseError diagnostic
        /\ msg = "Invalid XML: " +:+ diagnostic.
Proof.
  split.
  - apply extract_xml_error_inv.
  - intros (xml & d & Hr & Hp & ->).
    now apply (extract_parse_error fromstring fs source xml d).
Qed.

Lemma xml_parsing_error_iff_witness :
  exists xml diagnostic,
    read_xml_content Samples.no_files Samples.scenario_5_text = Ok xml
    /\ Samples.sample_parser xml = ET.ParseError diagnostic
    /\ "Invalid XML: mismatched tag: line 1, column 38"
       = "Invalid XML: " +:+ diagnostic.
Proof.
  apply (proj1 (xml_parsing_error_iff
                  Samples.sample_parser Samples.no_files
                  Samples.scenario_5_text _)).
  reflexivity.
Defined.

(** ** The command line *)

(** X11.  Without an argument after the program name, [main] prints the
    usage line on the standard output, writes nothing else, and exits with
    status 1; neither the file system nor the parser has a say. *)
Theorem main_usage
  (fromstring : string -> ET.ParseResult) (fs : FileSystem)
  (argv : list string) :
  length argv < 2 ->
  main fromstring fs argv = (mkStreams [usage_line] [], SystemExit 1).
Proof.
  intros H. unfold main.
  destruct (Nat.ltb_spec (length argv) 2); [reflexivity | lia].
Qed.

Lemma main_usage_witness :
  main Samples.sample_parser Samples.no_files ["extract_doc_numbers.py"]
  = (mkStreams [usage_line] [], SystemExit 1).
Proof. apply main_usage. simpl. lia. Defined.



(** X13.  When the extraction raises [FileReadError] or [XMLParsingError],
    [main] writes nothing on the standard output, writes [Error: ] followed
    by the message as the last line of the standard error, and exits with
    status 1. *)
Theorem main_reports_errors
  (fromstring : string -> ET.ParseResult) (fs : FileSystem)
  (argv : list string) (source msg : string) :
  argv !! 1 = Some source ->
  extract_doc_numbers fromstring fs source = Raise (FileReadError msg)
  \/ extract_doc_numbers fromstring fs source = Raise (XMLParsingError msg) ->
  main fromstring fs argv
  = (mkStreams [] (read_log fs source ++ ["Error: " +:+ msg]), SystemExit 1).
Proof.
  intros Ha He. unfold main.
  assert (Hlen : 2 <= length argv).
  { apply lookup_lt_Some in Ha. lia. }
  destruct (Nat.ltb_spec (length argv) 2); [lia |].
  rewrite Ha. simpl. now destruct He as [-> | ->].
Qed.

Lemma main_reports_errors_witness :
  main Samples.sample_parser
    (Samples.one_file "broken.xml" Samples.scenario_5_text)
    ["extract_doc_numbers.py"; "broken.xml"]
  = (mkStreams []
       ["INFO: Read file: broken.xml";
        "Error: Invalid XML: mismatched tag: line 1, column 38"],
     SystemExit 1).
Proof.
  apply (main_reports_errors
           Samples.sample_parser
           (Samples.one_file "broken.xml" Samples.scenario_5_text)
           ["extract_doc_numbers.py"; "broken.xml"] "broken.xml"
           "Invalid XML: mismatched tag: line 1, column 38").
  - reflexivity.
  - right. reflexivity.
Defined.

(** X14.  [main] does not catch the [ValueError] of line 95.  When the first
    argument does not start with [<] once trimmed and the existence test
    of line 88 answers [False], the exception leaves [main]: no [Error:]
    line is printed, nothing is written on either stream, and [sys.exit]
    is not called. *)
Theorem main_lets_value_error_through
  (fromstring : string -> ET.ParseResult) (fs : FileSystem)
  (argv : list string) (source : string) :
  argv !! 1 = Some source ->
  PyStr.startswith (PyStr.strip source) "<" = false ->
  exists_ fs source = Ok false ->
  main fromstring fs argv
  = (mkStreams [] [], Propagated (ValueError invalid_input_message)).
Proof.
  intros Ha Hs Hx. unfold main.
  assert (Hlen : 2 <= length argv).
  { apply lookup_lt_Some in Ha. lia. }
  destruct (Nat.ltb_spec (length argv) 2); [lia |].
  rewrite Ha. simpl.
  assert (Hr : read_xml_content fs source
               = Raise (ValueError invalid_input_message)).
  { unfold read_xml_content. now rewrite Hs, Hx. }
  rewrite (extract_read_error fromstring fs source _ Hr).
  unfold read_log. now rewrite Hs, Hx.
Qed.

Lemma main_lets_value_error_through_witness :
  main Samples.sample_parser Samples.no_files
    ["extract_doc_numbers.py"; "nonexistent.xml"]
  = (mkStreams [] [], Propagated (ValueError invalid_input_message)).
Proof.
  apply (main_lets_value_error_through
           Samples.sample_parser Samples.no_files
           ["extract_doc_numbers.py"; "nonexistent.xml"] "nonexistent.xml");
    reflexivity.
Defined.
